(** * log.c : redirection of the ESP-IDF logging entry points to syslog

    Shallow embedding of [src/log.c] and of the parts of
    [src/include/esp_log.h] it relies on.

    - C strings are [string]s (the bytes before the terminating NUL);
      [xstrlen] is their length and [strcmp a b == 0] is [String.eqb a b].
    - [format[i]] is [c_index format i]: the bytes of the string and the
      terminating NUL are readable, any index past the NUL is an
      out-of-bounds read, which makes the whole call end in [OOB_read].
    - A [va_list] is a cursor into the caller's argument area:
      [va_arg] yields the argument under the cursor and moves it by one.
    - The only piece of global state is [s_log_default_level];
      the external [xvSyslog] sink is modelled as the record of the call
      the dispatcher makes to it. *)

From Stdlib Require Import String Ascii List Arith Lia Bool.
Import ListNotations.
Open Scope string_scope.

(** ** Levels (esp_log.h) *)

Inductive esp_log_level_t : Set :=
| ESP_LOG_NONE
| ESP_LOG_ERROR
| ESP_LOG_WARN
| ESP_LOG_INFO
| ESP_LOG_DEBUG
| ESP_LOG_VERBOSE.

(** The numeric value of an enumerator, as C compares and indexes it. *)
Definition level_ord (l : esp_log_level_t) : nat :=
  match l with
  | ESP_LOG_NONE => 0
  | ESP_LOG_ERROR => 1
  | ESP_LOG_WARN => 2
  | ESP_LOG_INFO => 3
  | ESP_LOG_DEBUG => 4
  | ESP_LOG_VERBOSE => 5
  end.

(** ** C strings *)

Definition NUL : ascii := Ascii.zero.

Definition xstrlen (s : string) : nat := String.length s.

(** [s[i]]: defined up to and including the terminating NUL. *)
Definition c_index (s : string) (i : nat) : option ascii :=
  match String.get i s with
  | Some c => Some c
  | None => if Nat.eqb i (String.length s) then Some NUL else None
  end.

(** [s + n] on a [const char *]. *)
Fixpoint ptr_add (n : nat) (s : string) : string :=
  match n, s with
  | 0, _ => s
  | S n', String _ s' => ptr_add n' s'
  | S _, EmptyString => EmptyString
  end.

Definition strcmp_eq (a b : string) : bool := String.eqb a b.

(** ** Variadic arguments *)

Definition arg_word := nat.

Record va_list : Set := mk_va {
  va_area : list arg_word;
  va_pos : nat
}.

Definition va_start (area : list arg_word) : va_list := mk_va area 0.

(** [va_arg(args, void * )]: returns the argument under the cursor and
    moves the cursor on. *)
Definition va_arg (ap : va_list) : arg_word * va_list :=
  (nth (va_pos ap) (va_area ap) 0, mk_va (va_area ap) (S (va_pos ap))).

(** ** Sink and global state *)

Record syslog_call : Set := mk_call {
  Priority : nat;
  MsgID : string;
  sink_format : string;
  sink_args : va_list
}.

(** The result of one call of the dispatcher: either an out-of-bounds
    read of the format string, or a normal return, with the sink call made
    (if any) and the argument cursor as the function left it. *)
Inductive outcome : Set :=
| OOB_read
| Done (call : option syslog_call) (args_after : va_list).

Record log_state : Set := mk_state {
  s_log_default_level : esp_log_level_t
}.

(** [static esp_log_level_t s_log_default_level = ESP_LOG_WARN ;] *)
Definition initial_state : log_state := mk_state ESP_LOG_WARN.

(** [static const char esp_log_xlate[6] = { 0, 3, 4, 5, 6, 7 } ;] *)
Definition esp_log_xlate_table : list nat := [0; 3; 4; 5; 6; 7].

(** [esp_log_xlate[level]]; every enumerator indexes inside the table. *)
Definition esp_log_xlate (l : esp_log_level_t) : nat :=
  nth (level_ord l) esp_log_xlate_table 0.

(** [void esp_log_level_set(const char* tag, esp_log_level_t level)
      { s_log_default_level = level ; }] *)
Definition esp_log_level_set (st : log_state) (tag : string)
    (level : esp_log_level_t) : log_state :=
  mk_state level.

(** Modelled from the spec: [esp_log_level_get] is declared in
    esp_log.h but its body is not part of the sources; the spec's
    [Get() -> Severity] "returns current threshold". *)
Definition esp_log_level_get (st : log_state) (tag : string) : esp_log_level_t :=
  s_log_default_level st.

(** ** esp_log_writev *)

(** [Len > i && format[i] == ':'], with C's short-circuit: the index is
    read only when the length test holds. *)
Definition colon_at (format : string) (Len i : nat) : option bool :=
  if Nat.leb Len i then Some false
  else match c_index format i with
       | Some c => Some (Ascii.eqb c ":")
       | None => None
       end.

(** The choice of [Idx] (lines 57-64). *)
Definition artifact_idx (format : string) (Len : nat) : option nat :=
  match colon_at format Len 17 with
  | None => None
  | Some true => Some 18
  | Some false =>
      match colon_at format Len 10 with
      | None => None
      | Some true => Some 11
      | Some false => Some 0
      end
  end.

(** The body under [if (level <= s_log_default_level)] (lines 48-85). *)
Definition writev_body (level : esp_log_level_t) (tag format : string)
    (args : va_list) : outcome :=
  let Len := xstrlen format in
  match artifact_idx format Len with
  | None => OOB_read
  | Some Idx =>
      let '(format, Len, args) :=
        if Nat.eqb Idx 0 then (format, Len, args)
        else
          let format := ptr_add Idx format in
          let Len := Len - Idx in
          let '(_, args) := va_arg args in        (* spill the tag *)
          let '(_, args) := va_arg args in        (* spill the timestamp *)
          (format, Len, args) in
      if Nat.eqb Len 0 then Done None args
      else if Nat.eqb Len 2 && strcmp_eq format "%s" && strcmp_eq tag "wifi"
      then Done None args
      else Done (Some (mk_call (esp_log_xlate level) tag format args)) args
  end.

Definition esp_log_writev (st : log_state) (level : esp_log_level_t)
    (tag format : string) (args : va_list) : outcome :=
  if Nat.leb (level_ord level) (level_ord (s_log_default_level st))
  then writev_body level tag format args
  else Done None args.

(** [esp_log_write]: packages its variadic tail and delegates. *)
Definition esp_log_write (st : log_state) (level : esp_log_level_t)
    (tag format : string) (varargs : list arg_word) : outcome :=
  esp_log_writev st level tag format (va_start varargs).

(** The cursor after [n] calls of [va_arg]. *)
Definition va_skip (n : nat) (ap : va_list) : va_list :=
  mk_va (va_area ap) (n + va_pos ap).

(** The sink call an outcome made, if any. *)
Definition sink_call_of (o : outcome) : option syslog_call :=
  match o with
  | Done c _ => c
  | OOB_read => None
  end.

(** ** The macro layer of esp_log.h *)

(** The two level globals a program sees: [s_log_default_level] (static in
    log.c, read by [esp_log_writev]) and [esp_log_default_level] (declared
    [extern] in esp_log.h, read by the early and DRAM macros). *)
Record log_globals : Set := mk_globals {
  g_log : log_state;
  esp_log_default_level : esp_log_level_t
}.

(** Arguments of [esp_rom_printf] calls. *)
Inductive printf_arg : Set :=
| PInt (n : nat)
| PStr (s : string).

Record rom_printf_call : Set := mk_rom_printf {
  rp_format : string;
  rp_args : list printf_arg
}.

(** [LOG_EARLY_FORMAT_STRING] *)
Definition LOG_EARLY_FORMAT_STRING : string := "%d.%03d (%d) %d boot %s ".

(** [DRAM_LOG_FORMAT] (C variant) *)
Definition DRAM_LOG_FORMAT : string := "%d.%03d (%d) %s ".

Section Macros.

(** [LOG_LOCAL_LEVEL]: the compile-time level of the translation unit
    ([CONFIG_LOG_DEFAULT_LEVEL] outside the bootloader). *)
Variable LOG_LOCAL_LEVEL : esp_log_level_t.

(** [ESP_LOG_LEVEL_LOCAL(level, tag, format, ...)] (application build):
    [if (level <= LOG_LOCAL_LEVEL) esp_log_write(level, tag, format, ...)];
    the [ESP_LOGx] macros are this one at a fixed level. *)
Definition ESP_LOG_LEVEL_LOCAL (st : log_state) (level : esp_log_level_t)
    (tag format : string) (varargs : list arg_word) : outcome :=
  if Nat.leb (level_ord level) (level_ord LOG_LOCAL_LEVEL)
  then esp_log_write st level tag format varargs
  else Done None (va_start varargs).

Definition ESP_LOGE st := ESP_LOG_LEVEL_LOCAL st ESP_LOG_ERROR.
Definition ESP_LOGW st := ESP_LOG_LEVEL_LOCAL st ESP_LOG_WARN.
Definition ESP_LOGI st := ESP_LOG_LEVEL_LOCAL st ESP_LOG_INFO.
Definition ESP_LOGD st := ESP_LOG_LEVEL_LOCAL st ESP_LOG_DEBUG.
Definition ESP_LOGV st := ESP_LOG_LEVEL_LOCAL st ESP_LOG_VERBOSE.

(** [_ESP_LOG_EARLY_ENABLED(log_level)] outside the bootloader:
    [LOG_LOCAL_LEVEL >= (log_level) && esp_log_default_level >= (log_level)]. *)
Definition ESP_LOG_EARLY_ENABLED (g : log_globals) (level : esp_log_level_t) : bool :=
  Nat.leb (level_ord level) (level_ord LOG_LOCAL_LEVEL) &&
  Nat.leb (level_ord level) (level_ord (esp_log_default_level g)).

(** [ESP_LOG_EARLY_IMPL(tag, format, level, letter, ...)], with [mS] the
    value [esp_log_timestamp()] returns and [core] the value of
    [esp_cpu_get_core_id()]; the result is the list of [esp_rom_printf]
    calls made. *)
Definition ESP_LOG_EARLY_IMPL (g : log_globals) (mS core : nat) (tag format : string)
    (level : esp_log_level_t) (varargs : list printf_arg) : list rom_printf_call :=
  if ESP_LOG_EARLY_ENABLED g level then
    [mk_rom_printf LOG_EARLY_FORMAT_STRING
       [PInt (mS / 1000); PInt (mS mod 1000); PInt (level_ord level);
        PInt core; PStr tag];
     mk_rom_printf (format ++ String "010" EmptyString) varargs]
  else [].

(** [ESP_DRAM_LOG_IMPL(tag, format, level, letter, ...)] (C variant), with
    [mS] the value of [esp_log_early_timestamp()]. *)
Definition ESP_DRAM_LOG_IMPL (g : log_globals) (mS : nat) (tag format : string)
    (level : esp_log_level_t) (varargs : list printf_arg) : list rom_printf_call :=
  if ESP_LOG_EARLY_ENABLED g level then
    [mk_rom_printf DRAM_LOG_FORMAT
       [PInt (mS / 1000); PInt (mS mod 1000); PInt (level_ord level); PStr tag];
     mk_rom_printf (format ++ String "010" EmptyString) varargs]
  else [].

End Macros.

(** ** Auxiliary lemmas *)

Section Strings.

Lemma get_lt (s : string) (i : nat) :
  i < String.length s -> exists c, String.get i s = Some c.
Proof.
  revert i; induction s as [|a s IH]; intros i Hi; simpl in *.
  - lia.
  - destruct i as [|i]; [now exists a|].
    apply IH; lia.
Qed.

Lemma get_ge (s : string) (i : nat) :
  String.length s <= i -> String.get i s = None.
Proof.
  revert i; induction s as [|a s IH]; intros i Hi; simpl in *.
  - reflexivity.
  - destruct i as [|i]; [lia|].
    apply IH; lia.
Qed.

Lemma ptr_add_length (n : nat) (s : string) :
  String.length (ptr_add n s) = String.length s - n.
Proof.
  revert n; induction s as [|a s IH]; intros [|n]; simpl; auto.
Qed.

Lemma substring_full (s : string) :
  String.substring 0 (String.length s) s = s.
Proof.
  induction s as [|a s IH]; simpl; [reflexivity|now rewrite IH].
Qed.

Lemma ptr_add_substring (n : nat) (s : string) :
  ptr_add n s = String.substring n (String.length s - n) s.
Proof.
  revert n; induction s as [|a s IH]; intros [|n]; simpl.
  - reflexivity.
  - reflexivity.
  - now rewrite substring_full.
  - apply IH.
Qed.

Lemma colon_at_some (f : string) (i : nat) :
  exists b, colon_at f (xstrlen f) i = Some b.
Proof.
  unfold colon_at, xstrlen.
  destruct (Nat.leb (String.length f) i) eqn:E; [now eexists|].
  apply Nat.leb_gt in E.
  destruct (get_lt f i E) as [c Hc].
  unfold c_index; rewrite Hc; now eexists.
Qed.

Lemma colon_at_true (f : string) (i : nat) :
  colon_at f (xstrlen f) i = Some true <->
  i < String.length f /\ String.get i f = Some ":"%char.
Proof.
  unfold colon_at, xstrlen.
  destruct (Nat.leb (String.length f) i) eqn:E.
  - apply Nat.leb_le in E; split; [discriminate | lia].
  - apply Nat.leb_gt in E.
    destruct (get_lt f i E) as [c Hc].
    unfold c_index; rewrite Hc.
    split.
    + intros H; injection H as H; apply Ascii.eqb_eq in H; subst; auto.
    + intros [_ H]; injection H as H; subst; reflexivity.
Qed.

Lemma colon_at_false (f : string) (i : nat) :
  ~ (i < String.length f /\ String.get i f = Some ":"%char) ->
  colon_at f (xstrlen f) i = Some false.
Proof.
  intros Hn; destruct (colon_at_some f i) as [[|] Hb]; auto.
  exfalso; apply Hn, colon_at_true, Hb.
Qed.

End Strings.

Section Writev.

Lemma artifact_idx_some (f : string) :
  exists Idx, artifact_idx f (xstrlen f) = Some Idx.
Proof.
  unfold artifact_idx.
  destruct (colon_at_some f 17) as [[|] E17]; rewrite E17; [now eexists|].
  destruct (colon_at_some f 10) as [[|] E10]; rewrite E10; now eexists.
Qed.

Lemma artifact_idx_cases (f : string) (Idx : nat) :
  artifact_idx f (xstrlen f) = Some Idx -> Idx = 0 \/ Idx = 11 \/ Idx = 18.
Proof.
  unfold artifact_idx.
  destruct (colon_at_some f 17) as [[|] E17]; rewrite E17;
    [intros H; injection H; lia|].
  destruct (colon_at_some f 10) as [[|] E10]; rewrite E10;
    intros H; injection H; lia.
Qed.

Lemma writev_body_strip (level : esp_log_level_t) (tag f : string)
    (args : va_list) (Idx : nat) :
  artifact_idx f (xstrlen f) = Some Idx -> Idx <> 0 ->
  writev_body level tag f args =
  let r := ptr_add Idx f in
  let a := va_skip 2 args in
  if Nat.eqb (xstrlen f - Idx) 0 then Done None a
  else if Nat.eqb (xstrlen f - Idx) 2 && strcmp_eq r "%s" && strcmp_eq tag "wifi"
  then Done None a
  else Done (Some (mk_call (esp_log_xlate level) tag r a)) a.
Proof.
  intros H Hn; unfold writev_body; rewrite H.
  destruct Idx as [|Idx]; [contradiction|]; reflexivity.
Qed.

Lemma writev_body_plain (level : esp_log_level_t) (tag f : string)
    (args : va_list) :
  artifact_idx f (xstrlen f) = Some 0 ->
  writev_body level tag f args =
  if Nat.eqb (xstrlen f) 0 then Done None args
  else if Nat.eqb (xstrlen f) 2 && strcmp_eq f "%s" && strcmp_eq tag "wifi"
  then Done None args
  else Done (Some (mk_call (esp_log_xlate level) tag f args)) args.
Proof.
  intros H; unfold writev_body; rewrite H; reflexivity.
Qed.

Lemma writev_pass (st : log_state) (level : esp_log_level_t) (tag f : string)
    (args : va_list) :
  level_ord level <= level_ord (s_log_default_level st) ->
  esp_log_writev st level tag f args = writev_body level tag f args.
Proof.
  intros H; unfold esp_log_writev.
  apply Nat.leb_le in H; now rewrite H.
Qed.

End Writev.

(** ** Claims *)

(** C1: a level numerically above the threshold is filtered: the sink is
    not called, the format string is not read (the result does not depend on
    it) and the argument cursor is returned untouched. *)
Theorem writev_filtered (st : log_state) (level : esp_log_level_t)
    (tag format : string) (args : va_list) :
  level_ord (s_log_default_level st) < level_ord level ->
  esp_log_writev st level tag format args = Done None args.
Proof.
  intros H; unfold esp_log_writev.
  destruct (Nat.leb (level_ord level) (level_ord (s_log_default_level st))) eqn:E;
    [apply Nat.leb_le in E; lia | reflexivity].
Qed.

Lemma writev_filtered_witness :
  level_ord (s_log_default_level initial_state) < level_ord ESP_LOG_INFO /\
  esp_log_write initial_state ESP_LOG_INFO "wifi" "%c (%d) %s: x" [1; 2]
  = Done None (va_start [1; 2]).
Proof.
  split; [simpl; lia|].
  apply (writev_filtered initial_state ESP_LOG_INFO "wifi" "%c (%d) %s: x"
           (va_start [1; 2])).
  simpl; lia.
Defined.

(** C2 (counterexample): the empty format matches no artifact pattern and
    is not the continuation shape, yet the sink is not called. *)
Lemma writev_empty_format_not_forwarded :
  artifact_idx "" (xstrlen "") = Some 0 /\
  esp_log_writev initial_state ESP_LOG_ERROR "app" "" (va_start [5])
  = Done None (va_start [5]).
Proof. split; reflexivity. Qed.

(** C2 (amended): at or below the threshold, the empty format is
    suppressed with the cursor untouched, and a non-empty format with no
    ':' at offset 17 or 10 (within its length) that is not the ["%s"]
    continuation under tag ["wifi"] reaches the sink unchanged, with the
    argument cursor unchanged and the translated priority. *)
Theorem writev_passthrough (st : log_state) (level : esp_log_level_t)
    (tag f : string) (args : va_list) :
  level_ord level <= level_ord (s_log_default_level st) ->
  esp_log_writev st level tag "" args = Done None args /\
  (~ (17 < String.length f /\ String.get 17 f = Some ":"%char) ->
   ~ (10 < String.length f /\ String.get 10 f = Some ":"%char) ->
   f <> "" ->
   ~ (f = "%s" /\ tag = "wifi") ->
   esp_log_writev st level tag f args
   = Done (Some (mk_call (esp_log_xlate level) tag f args)) args).
Proof.
  intros Hl; split.
  { rewrite (writev_pass st level tag "" args Hl); reflexivity. }
  intros H17 H10 Hne Hw.
  rewrite (writev_pass st level tag f args Hl).
  assert (Hi : artifact_idx f (xstrlen f) = Some 0).
  { unfold artifact_idx.
    rewrite (colon_at_false f 17 H17), (colon_at_false f 10 H10).
    reflexivity. }
  rewrite (writev_body_plain level tag f args Hi).
  destruct (Nat.eqb (xstrlen f) 0) eqn:E0.
  - apply Nat.eqb_eq in E0; unfold xstrlen in E0.
    destruct f; [contradiction | discriminate].
  - unfold strcmp_eq.
    destruct (String.eqb f "%s") eqn:Ef, (String.eqb tag "wifi") eqn:Et;
      rewrite ?andb_true_r, ?andb_false_r; try reflexivity.
    apply String.eqb_eq in Ef; apply String.eqb_eq in Et; tauto.
Qed.

Lemma writev_passthrough_witness :
  esp_log_writev initial_state ESP_LOG_ERROR "app" "" (va_start [5])
  = Done None (va_start [5]) /\
  esp_log_writev initial_state ESP_LOG_ERROR "app" "Failed: %d" (va_start [5])
  = Done (Some (mk_call 3 "app" "Failed: %d" (va_start [5]))) (va_start [5]).
Proof.
  destruct (writev_passthrough initial_state ESP_LOG_ERROR "app" "Failed: %d"
              (va_start [5]) ltac:(simpl; lia)) as [He Hp].
  split; [exact He|].
  apply Hp.
  - simpl; intros [H _]; lia.
  - simpl; intros [_ H]; discriminate.
  - discriminate.
  - intros [H _]; discriminate.
Defined.

(** C3: at or below the threshold, a format with ':' at offset 17 (ANSI
    variant) has its first 18 bytes skipped, otherwise one with ':' at offset
    10 has its first 11 bytes skipped; in both cases exactly two arguments
    are consumed, the record is suppressed when nothing is left, and any
    sink call gets the residual format and the advanced cursor. *)
Theorem writev_strip_header (st : log_state) (level : esp_log_level_t)
    (tag f : string) (args : va_list) (k : nat) :
  level_ord level <= level_ord (s_log_default_level st) ->
  (17 < String.length f /\ String.get 17 f = Some ":"%char /\ k = 18) \/
  (~ (17 < String.length f /\ String.get 17 f = Some ":"%char) /\
   10 < String.length f /\ String.get 10 f = Some ":"%char /\ k = 11) ->
  exists out,
    esp_log_writev st level tag f args = Done out (va_skip 2 args) /\
    (String.length f = k -> out = None) /\
    (forall c, out = Some c ->
       sink_format c = String.substring k (String.length f - k) f /\
       sink_args c = va_skip 2 args).
Proof.
  intros Hl Hm.
  rewrite (writev_pass st level tag f args Hl).
  assert (Hi : artifact_idx f (xstrlen f) = Some k /\ k <> 0).
  { unfold artifact_idx.
    destruct Hm as [[H1 [H2 ->]] | [H1 [H2 [H3 ->]]]].
    - rewrite (proj2 (colon_at_true f 17) (conj H1 H2)); split; [reflexivity|lia].
    - rewrite (colon_at_false f 17 H1).
      rewrite (proj2 (colon_at_true f 10) (conj H2 H3)); split; [reflexivity|lia]. }
  destruct Hi as [Hi Hk].
  rewrite (writev_body_strip level tag f args k Hi Hk); cbv zeta.
  rewrite <- ptr_add_substring.
  destruct (Nat.eqb (xstrlen f - k) 0) eqn:E0.
  - exists None; repeat split; [discriminate..].
  - destruct (Nat.eqb (xstrlen f - k) 2 && strcmp_eq (ptr_add k f) "%s"
              && strcmp_eq tag "wifi").
    + exists None; repeat split; [discriminate..].
    + eexists; split; [reflexivity|split].
      * intros Hlen; apply Nat.eqb_neq in E0; unfold xstrlen in E0; lia.
      * intros c Hc; injection Hc as <-; split; reflexivity.
Qed.

Lemma writev_strip_header_witness :
  exists out,
    esp_log_writev initial_state ESP_LOG_ERROR "wifi" "%c (%d) %s:"
      (va_start [1; 2])
    = Done out (va_skip 2 (va_start [1; 2])) /\
    (String.length "%c (%d) %s:" = 11 -> out = None) /\
    (forall c, out = Some c ->
       sink_format c = String.substring 11 (String.length "%c (%d) %s:" - 11)
                         "%c (%d) %s:" /\
       sink_args c = va_skip 2 (va_start [1; 2])).
Proof.
  apply (writev_strip_header initial_state ESP_LOG_ERROR "wifi" "%c (%d) %s:"
           (va_start [1; 2]) 11).
  - simpl; lia.
  - right; split; [simpl; intros [H _]; lia|].
    split; [simpl; lia|]; split; reflexivity.
Defined.

(** C4 (counterexample): the wifi header call reaches the sink with the
    residual [" connecting..."]: the byte after the ':' is kept. *)
Lemma wifi_header_residual_keeps_space :
  esp_log_write (mk_state ESP_LOG_INFO) ESP_LOG_INFO "wifi"
    "%c (%d) %s: connecting..." [7; 1234]
  = Done (Some (mk_call 5 "wifi" " connecting..." (mk_va [7; 1234] 2)))
         (mk_va [7; 1234] 2) /\
  " connecting..." <> "connecting...".
Proof. split; [reflexivity | discriminate]. Qed.

(** C4 (amended): with the threshold at Info or more verbose, the call
    [Write(Info, "wifi", "%c (%d) %s: connecting...", tagPtr, ts)] makes one
    sink call, with tag ["wifi"], residual format [" connecting..."] and the
    cursor past both spilled arguments (none left for the sink). *)
Theorem wifi_header_call (st : log_state) (tagPtr ts : arg_word) :
  level_ord ESP_LOG_INFO <= level_ord (s_log_default_level st) ->
  esp_log_write st ESP_LOG_INFO "wifi" "%c (%d) %s: connecting..." [tagPtr; ts]
  = Done (Some (mk_call (esp_log_xlate ESP_LOG_INFO) "wifi" " connecting..."
                  (mk_va [tagPtr; ts] 2)))
         (mk_va [tagPtr; ts] 2).
Proof.
  intros Hl; unfold esp_log_write.
  rewrite (writev_pass st ESP_LOG_INFO _ _ _ Hl).
  reflexivity.
Qed.

Lemma wifi_header_call_witness :
  esp_log_write (mk_state ESP_LOG_DEBUG) ESP_LOG_INFO "wifi"
    "%c (%d) %s: connecting..." [42; 1000]
  = Done (Some (mk_call (esp_log_xlate ESP_LOG_INFO) "wifi" " connecting..."
                  (mk_va [42; 1000] 2)))
         (mk_va [42; 1000] 2).
Proof. apply (wifi_header_call (mk_state ESP_LOG_DEBUG) 42 1000); simpl; lia. Defined.

(** C5: at or below the threshold, when the (residual) format is exactly
    ["%s"] the record is dropped if the tag is ["wifi"] and forwarded
    unchanged, with the cursor as the stripping step left it, otherwise. *)
Theorem writev_continuation (st : log_state) (level : esp_log_level_t)
    (tag f : string) (args : va_list) (Idx : nat) :
  level_ord level <= level_ord (s_log_default_level st) ->
  artifact_idx f (xstrlen f) = Some Idx ->
  ptr_add Idx f = "%s" ->
  let a := if Nat.eqb Idx 0 then args else va_skip 2 args in
  (tag = "wifi" -> esp_log_writev st level tag f args = Done None a) /\
  (tag <> "wifi" ->
   esp_log_writev st level tag f args
   = Done (Some (mk_call (esp_log_xlate level) tag "%s" a)) a).
Proof.
  intros Hl Hi Hr a.
  rewrite (writev_pass st level tag f args Hl).
  assert (Hlen : xstrlen f - Idx = 2).
  { unfold xstrlen; rewrite <- ptr_add_length, Hr; reflexivity. }
  destruct (Nat.eqb Idx 0) eqn:E0; subst a.
  - apply Nat.eqb_eq in E0; subst Idx.
    simpl in Hr; subst f.
    rewrite (writev_body_plain level tag "%s" args Hi); cbn.
    split; [intros ->; reflexivity|].
    intros Ht; apply String.eqb_neq in Ht; unfold strcmp_eq; now rewrite Ht.
  - apply Nat.eqb_neq in E0.
    rewrite (writev_body_strip level tag f args Idx Hi E0); cbv zeta.
    rewrite Hlen, Hr; cbn.
    split; [intros ->; reflexivity|].
    intros Ht; apply String.eqb_neq in Ht; unfold strcmp_eq; now rewrite Ht.
Qed.

Lemma writev_continuation_witness :
  esp_log_writev initial_state ESP_LOG_WARN "wifi" "%s" (va_start [9])
  = Done None (va_start [9]) /\
  esp_log_writev initial_state ESP_LOG_WARN "app" "%s" (va_start [9])
  = Done (Some (mk_call (esp_log_xlate ESP_LOG_WARN) "app" "%s" (va_start [9])))
         (va_start [9]).
Proof.
  pose proof (writev_continuation initial_state ESP_LOG_WARN "wifi" "%s"
                (va_start [9]) 0 ltac:(simpl; lia) eq_refl eq_refl) as [Hw _].
  pose proof (writev_continuation initial_state ESP_LOG_WARN "app" "%s"
                (va_start [9]) 0 ltac:(simpl; lia) eq_refl eq_refl) as [_ Ha].
  split; [exact (Hw eq_refl) | apply Ha; discriminate].
Defined.

(** C6: the translation is the fixed table [esp_log_xlate], defined at
    every enumerator; for every level above [ESP_LOG_NONE] it is the level
    plus 2; and it gives the priority of every sink call. *)
Theorem xlate_table_additive :
  (forall l, nth_error esp_log_xlate_table (level_ord l) = Some (esp_log_xlate l)) /\
  (forall l, 0 < level_ord l -> esp_log_xlate l = level_ord l + 2) /\
  (forall st l tag f args c a,
     esp_log_writev st l tag f args = Done (Some c) a ->
     Priority c = esp_log_xlate l).
Proof.
  split; [intros []; reflexivity|split].
  - intros [] H; try reflexivity; simpl in H; lia.
  - intros st l tag f args c a.
    unfold esp_log_writev.
    destruct (Nat.leb (level_ord l) (level_ord (s_log_default_level st)));
      [|discriminate].
    destruct (artifact_idx_some f) as [Idx Hi].
    destruct (Nat.eqb Idx 0) eqn:E0.
    + apply Nat.eqb_eq in E0; subst Idx.
      rewrite (writev_body_plain l tag f args Hi).
      destruct (Nat.eqb (xstrlen f) 0); [discriminate|].
      destruct (_ && _ && _); [discriminate|].
      intros H; injection H as <- _; reflexivity.
    + apply Nat.eqb_neq in E0.
      rewrite (writev_body_strip l tag f args Idx Hi E0); cbv zeta.
      destruct (Nat.eqb (xstrlen f - Idx) 0); [discriminate|].
      destruct (_ && _ && _); [discriminate|].
      intros H; injection H as <- _; reflexivity.
Qed.

Lemma xlate_table_additive_witness :
  esp_log_xlate ESP_LOG_INFO = 5 /\
  esp_log_xlate ESP_LOG_INFO = level_ord ESP_LOG_INFO + 2.
Proof.
  split; [reflexivity|].
  apply (proj1 (proj2 xlate_table_additive) ESP_LOG_INFO); simpl; lia.
Defined.

(** C7: [esp_log_level_set] overwrites the threshold whatever the tag and
    the previous state, and [esp_log_level_get] then returns the new level;
    in particular [SetLevel(Debug)] then [GetLevel()] gives [Debug]. *)
Theorem level_set_get (st : log_state) (tag tag' : string) (L : esp_log_level_t) :
  esp_log_level_set st tag L = mk_state L /\
  esp_log_level_get (esp_log_level_set st tag L) tag' = L /\
  esp_log_level_get (esp_log_level_set st tag ESP_LOG_DEBUG) tag' = ESP_LOG_DEBUG.
Proof. repeat split. Qed.

(** C8: every index read of the format string is in bounds (no call ends
    in an out-of-bounds read), a format of length at most 17 never matches
    the offset-17 pattern and one of length at most 10 matches neither. *)
Theorem format_checks_length_guarded :
  (forall st level tag f args, esp_log_writev st level tag f args <> OOB_read) /\
  (forall f, xstrlen f <= 17 -> colon_at f (xstrlen f) 17 = Some false) /\
  (forall f, xstrlen f <= 10 -> colon_at f (xstrlen f) 10 = Some false /\
                                artifact_idx f (xstrlen f) = Some 0).
Proof.
  split; [|split].
  - intros st level tag f args; unfold esp_log_writev.
    destruct (Nat.leb _ _); [|discriminate].
    unfold writev_body.
    destruct (artifact_idx_some f) as [Idx Hi]; rewrite Hi.
    destruct (Nat.eqb Idx 0);
      [|destruct (va_arg args) as [? a1]; destruct (va_arg a1) as [? a2]];
      repeat match goal with |- context [if ?b then _ else _] => destruct b end;
      discriminate.
  - intros f H; unfold colon_at; apply Nat.leb_le in H; now rewrite H.
  - intros f H.
    assert (H17 : colon_at f (xstrlen f) 17 = Some false).
    { unfold colon_at; replace (Nat.leb (xstrlen f) 17) with true;
        [reflexivity | symmetry; apply Nat.leb_le; lia]. }
    assert (H10 : colon_at f (xstrlen f) 10 = Some false).
    { unfold colon_at; apply Nat.leb_le in H; now rewrite H. }
    split; [exact H10|].
    unfold artifact_idx; now rewrite H17, H10.
Qed.

Lemma format_checks_length_guarded_witness :
  colon_at "%s: x" (xstrlen "%s: x") 10 = Some false /\
  artifact_idx "%s: x" (xstrlen "%s: x") = Some 0.
Proof.
  apply (proj2 (proj2 format_checks_length_guarded) "%s: x"); simpl; lia.
Defined.

(** C10: the threshold starts at [ESP_LOG_WARN]: Error and Warn records
    go on to the normalizer, Info, Debug and Verbose records are dropped
    with the cursor untouched. *)
Theorem default_threshold_warn :
  s_log_default_level initial_state = ESP_LOG_WARN /\
  (forall l tag f args, l = ESP_LOG_ERROR \/ l = ESP_LOG_WARN ->
     esp_log_writev initial_state l tag f args = writev_body l tag f args) /\
  (forall l tag f args,
     l = ESP_LOG_INFO \/ l = ESP_LOG_DEBUG \/ l = ESP_LOG_VERBOSE ->
     esp_log_writev initial_state l tag f args = Done None args).
Proof.
  split; [reflexivity|split].
  - intros l tag f args [-> | ->]; reflexivity.
  - intros l tag f args [-> | [-> | ->]]; reflexivity.
Qed.

Lemma default_threshold_warn_witness :
  esp_log_writev initial_state ESP_LOG_DEBUG "app" "x=%d" (va_start [3])
  = Done None (va_start [3]) /\
  esp_log_writev initial_state ESP_LOG_WARN "app" "x=%d" (va_start [3])
  = writev_body ESP_LOG_WARN "app" "x=%d" (va_start [3]).
Proof.
  split.
  - apply (proj2 (proj2 default_threshold_warn)); right; left; reflexivity.
  - apply (proj1 (proj2 default_threshold_warn)); right; reflexivity.
Defined.

(** ** Further properties of log.c and of the macro layer *)

Section Shape.

Lemma writev_body_shape (level : esp_log_level_t) (tag f : string) (args : va_list) :
  exists Idx, artifact_idx f (xstrlen f) = Some Idx /\
  writev_body level tag f args =
    (let a := if Nat.eqb Idx 0 then args else va_skip 2 args in
     let r := ptr_add Idx f in
     if Nat.eqb (String.length r) 0 then Done None a
     else if Nat.eqb (String.length r) 2 && strcmp_eq r "%s" && strcmp_eq tag "wifi"
     then Done None a
     else Done (Some (mk_call (esp_log_xlate level) tag r a)) a).
Proof.
  destruct (artifact_idx_some f) as [Idx Hi]; exists Idx; split; [exact Hi|].
  destruct (Nat.eqb Idx 0) eqn:E0.
  - apply Nat.eqb_eq in E0; subst Idx.
    rewrite (writev_body_plain level tag f args Hi); reflexivity.
  - apply Nat.eqb_neq in E0.
    rewrite (writev_body_strip level tag f args Idx Hi E0); cbv zeta.
    rewrite ptr_add_length; reflexivity.
Qed.

(** Everything a completed call can produce. *)
Lemma writev_outcome (st : log_state) (level : esp_log_level_t) (tag f : string)
    (args : va_list) (c : option syslog_call) (a : va_list) :
  esp_log_writev st level tag f args = Done c a ->
  (c = None /\ a = args) \/
  (level_ord level <= level_ord (s_log_default_level st) /\
   exists Idx, artifact_idx f (xstrlen f) = Some Idx /\
     a = (if Nat.eqb Idx 0 then args else va_skip 2 args) /\
     (c = None \/
      c = Some (mk_call (esp_log_xlate level) tag (ptr_add Idx f) a) /\
      String.length (ptr_add Idx f) <> 0 /\
      ~ (ptr_add Idx f = "%s" /\ tag = "wifi"))).
Proof.
  unfold esp_log_writev.
  destruct (Nat.leb (level_ord level) (level_ord (s_log_default_level st))) eqn:El.
  2: { intros H; injection H as <- <-; left; auto. }
  apply Nat.leb_le in El; intros H; right; split; [exact El|].
  destruct (writev_body_shape level tag f args) as [Idx [Hi Hb]].
  rewrite Hb in H; cbv zeta in H.
  exists Idx; split; [exact Hi|].
  destruct (Nat.eqb (String.length (ptr_add Idx f)) 0) eqn:E0.
  { injection H as <- <-; split; [reflexivity | left; reflexivity]. }
  apply Nat.eqb_neq in E0.
  destruct (Nat.eqb (String.length (ptr_add Idx f)) 2 && strcmp_eq (ptr_add Idx f) "%s"
            && strcmp_eq tag "wifi") eqn:Ew.
  { injection H as <- <-; split; [reflexivity | left; reflexivity]. }
  injection H as <- <-; split; [reflexivity|right; split; [reflexivity|split; [exact E0|]]].
  intros [Hr Ht]; rewrite Hr, Ht in Ew; discriminate.
Qed.

End Shape.

(** X1: every sink call carries the caller's tag as message id and the
    translated priority; its format is the caller's format advanced by 0,
    11 or 18 bytes, and its argument cursor is the caller's, moved by two
    exactly when a prefix was skipped. *)
Theorem sink_call_shape (st : log_state) (level : esp_log_level_t) (tag f : string)
    (args : va_list) (c : syslog_call) (a : va_list) :
  esp_log_writev st level tag f args = Done (Some c) a ->
  MsgID c = tag /\ Priority c = esp_log_xlate level /\ sink_args c = a /\
  exists Idx, sink_format c = ptr_add Idx f /\
    ((Idx = 0 /\ a = args) \/ ((Idx = 11 \/ Idx = 18) /\ a = va_skip 2 args)).
Proof.
  intros H; destruct (writev_outcome st level tag f args (Some c) a H)
    as [[Hc _] | [_ [Idx [Hi [Ha [Hc | [Hc _]]]]]]]; try discriminate.
  injection Hc as ->; simpl; repeat split.
  exists Idx; split; [reflexivity|].
  destruct (artifact_idx_cases f Idx Hi) as [-> | [-> | ->]]; simpl in Ha; auto.
Qed.

Lemma sink_call_shape_witness :
  MsgID (mk_call 5 "wifi" " up" (mk_va [1; 2] 2)) = "wifi".
Proof.
  apply (proj1 (sink_call_shape (mk_state ESP_LOG_INFO) ESP_LOG_INFO "wifi"
                  "%c (%d) %s: up" (va_start [1; 2])
                  (mk_call 5 "wifi" " up" (mk_va [1; 2] 2)) (mk_va [1; 2] 2)
                  eq_refl)).
Defined.

(** X2: the sink is never handed an empty format, nor the format ["%s"]
    under the tag ["wifi"]. *)
Theorem sink_never_empty_or_wifi_crlf (st : log_state) (level : esp_log_level_t)
    (tag f : string) (args : va_list) (c : syslog_call) (a : va_list) :
  esp_log_writev st level tag f args = Done (Some c) a ->
  sink_format c <> "" /\ ~ (sink_format c = "%s" /\ MsgID c = "wifi").
Proof.
  intros H; destruct (writev_outcome st level tag f args (Some c) a H)
    as [[Hc _] | [_ [Idx [Hi [Ha [Hc | [Hc [Hn Hw]]]]]]]]; try discriminate.
  injection Hc as ->; simpl; split; [|exact Hw].
  intros He; rewrite He in Hn; apply Hn; reflexivity.
Qed.

Lemma sink_never_empty_or_wifi_crlf_witness :
  sink_format (mk_call 3 "app" "%s" (va_start [4])) <> "".
Proof.
  apply (proj1 (sink_never_empty_or_wifi_crlf initial_state ESP_LOG_ERROR "app" "%s"
                  (va_start [4]) (mk_call 3 "app" "%s" (va_start [4])) (va_start [4])
                  eq_refl)).
Defined.

(** X3: a call consumes no argument or exactly two (the spilled tag and
    timestamp), whether or not the sink is called. *)
Theorem writev_cursor_moves_0_or_2 (st : log_state) (level : esp_log_level_t)
    (tag f : string) (args : va_list) (c : option syslog_call) (a : va_list) :
  esp_log_writev st level tag f args = Done c a ->
  a = args \/ a = va_skip 2 args.
Proof.
  intros H; destruct (writev_outcome st level tag f args c a H)
    as [[_ Ha] | [_ [Idx [_ [Ha _]]]]]; [now left|].
  destruct (Nat.eqb Idx 0); auto.
Qed.

Lemma writev_cursor_moves_0_or_2_witness :
  mk_va [1; 2] 2 = va_start [1; 2] \/ mk_va [1; 2] 2 = va_skip 2 (va_start [1; 2]).
Proof.
  apply (writev_cursor_moves_0_or_2 initial_state ESP_LOG_ERROR "wifi" "%c (%d) %s:"
           (va_start [1; 2]) None).
  reflexivity.
Defined.

(** X4: raising the threshold never loses a record: a sink call made under
    one threshold is made identically under any more verbose threshold. *)
Theorem writev_threshold_monotone (st st' : log_state) (level : esp_log_level_t)
    (tag f : string) (args : va_list) (c : syslog_call) (a : va_list) :
  level_ord (s_log_default_level st) <= level_ord (s_log_default_level st') ->
  esp_log_writev st level tag f args = Done (Some c) a ->
  esp_log_writev st' level tag f args = Done (Some c) a.
Proof.
  intros Hle H.
  destruct (writev_outcome st level tag f args (Some c) a H)
    as [[Hc _] | [Hl _]]; [discriminate|].
  rewrite (writev_pass st' level tag f args ltac:(lia)).
  rewrite (writev_pass st level tag f args Hl) in H; exact H.
Qed.

Lemma writev_threshold_monotone_witness :
  esp_log_writev (mk_state ESP_LOG_VERBOSE) ESP_LOG_WARN "app" "x" (va_start [])
  = Done (Some (mk_call 4 "app" "x" (va_start []))) (va_start []).
Proof.
  apply (writev_threshold_monotone initial_state (mk_state ESP_LOG_VERBOSE)).
  - simpl; lia.
  - reflexivity.
Defined.

(** X5: a record at [ESP_LOG_NONE] is never filtered, whatever the
    threshold (also after [esp_log_level_set(tag, ESP_LOG_NONE)]); when it
    reaches the sink it does so with priority 0. *)
Theorem none_level_never_filtered (st : log_state) (tag f : string) (args : va_list) :
  esp_log_writev st ESP_LOG_NONE tag f args = writev_body ESP_LOG_NONE tag f args /\
  (forall c a, esp_log_writev st ESP_LOG_NONE tag f args = Done (Some c) a ->
               Priority c = 0).
Proof.
  split; [apply writev_pass; simpl; lia|].
  intros c a H.
  destruct (writev_outcome st ESP_LOG_NONE tag f args (Some c) a H)
    as [[Hc _] | [_ [Idx [_ [_ [Hc | [Hc _]]]]]]]; try discriminate.
  injection Hc as ->; reflexivity.
Qed.

Lemma none_level_never_filtered_witness :
  esp_log_writev (mk_state ESP_LOG_NONE) ESP_LOG_NONE "app" "boot" (va_start [])
  = writev_body ESP_LOG_NONE "app" "boot" (va_start []).
Proof.
  exact (proj1 (none_level_never_filtered (mk_state ESP_LOG_NONE) "app" "boot"
                  (va_start []))).
Defined.

(** X6: through [ESP_LOG_LEVEL_LOCAL] (and so [ESP_LOGE] ... [ESP_LOGV])
    a record reaches the sink only if its level is within both the
    compile-time [LOG_LOCAL_LEVEL] and the runtime threshold; above
    [LOG_LOCAL_LEVEL] nothing is read and the arguments are untouched. *)
Theorem log_level_local_gates (LL : esp_log_level_t) (st : log_state)
    (level : esp_log_level_t) (tag f : string) (varargs : list arg_word) :
  (level_ord LL < level_ord level ->
   ESP_LOG_LEVEL_LOCAL LL st level tag f varargs = Done None (va_start varargs)) /\
  (forall c a, ESP_LOG_LEVEL_LOCAL LL st level tag f varargs = Done (Some c) a ->
   level_ord level <= level_ord LL /\
   level_ord level <= level_ord (s_log_default_level st)).
Proof.
  unfold ESP_LOG_LEVEL_LOCAL.
  destruct (Nat.leb (level_ord level) (level_ord LL)) eqn:E.
  - apply Nat.leb_le in E; split; [lia|].
    intros c a H; split; [exact E|].
    destruct (writev_outcome st level tag f (va_start varargs) (Some c) a H)
      as [[Hc _] | [Hl _]]; [discriminate | exact Hl].
  - apply Nat.leb_gt in E; split; [reflexivity | discriminate].
Qed.

Lemma log_level_local_gates_witness :
  ESP_LOGV ESP_LOG_INFO (mk_state ESP_LOG_VERBOSE) "app" "v=%d" [1]
  = Done None (va_start [1]).
Proof.
  apply (proj1 (log_level_local_gates ESP_LOG_INFO (mk_state ESP_LOG_VERBOSE)
                  ESP_LOG_VERBOSE "app" "v=%d" [1])); simpl; lia.
Defined.

(** X8: when enabled, the early and DRAM macros make two [esp_rom_printf]
    calls: a header whose first two fields are the seconds and the
    milliseconds of [mS] (recombining to [mS], milliseconds below 1000),
    then the format with a newline appended and the caller's arguments;
    when disabled they print nothing. *)
Theorem early_dram_timestamp (LL : esp_log_level_t) (g : log_globals)
    (mS core : nat) (tag f : string) (level : esp_log_level_t)
    (va : list printf_arg) :
  (ESP_LOG_EARLY_ENABLED LL g level = false ->
   ESP_LOG_EARLY_IMPL LL g mS core tag f level va = [] /\
   ESP_DRAM_LOG_IMPL LL g mS tag f level va = []) /\
  (ESP_LOG_EARLY_ENABLED LL g level = true ->
   (exists s ms rest,
      ESP_LOG_EARLY_IMPL LL g mS core tag f level va
      = [mk_rom_printf LOG_EARLY_FORMAT_STRING (PInt s :: PInt ms :: rest);
         mk_rom_printf (f ++ String "010" EmptyString) va] /\
      s * 1000 + ms = mS /\ ms < 1000) /\
   (exists s ms rest,
      ESP_DRAM_LOG_IMPL LL g mS tag f level va
      = [mk_rom_printf DRAM_LOG_FORMAT (PInt s :: PInt ms :: rest);
         mk_rom_printf (f ++ String "010" EmptyString) va] /\
      s * 1000 + ms = mS /\ ms < 1000)).
Proof.
  unfold ESP_LOG_EARLY_IMPL, ESP_DRAM_LOG_IMPL.
  pose proof (Nat.div_mod mS 1000 ltac:(lia)) as Hd.
  pose proof (Nat.mod_upper_bound mS 1000 ltac:(lia)) as Hm.
  split; intros E; rewrite E; [split; reflexivity|].
  split; do 3 eexists; (split; [reflexivity|split; [lia|exact Hm]]).
Qed.

Lemma early_dram_timestamp_witness :
  (exists s ms rest,
     ESP_LOG_EARLY_IMPL ESP_LOG_INFO (mk_globals initial_state ESP_LOG_WARN) 4321 0
       "boot" "x" ESP_LOG_ERROR []
     = [mk_rom_printf LOG_EARLY_FORMAT_STRING (PInt s :: PInt ms :: rest);
        mk_rom_printf ("x" ++ String "010" EmptyString) []] /\
     s * 1000 + ms = 4321 /\ ms < 1000) /\
  (exists s ms rest,
     ESP_DRAM_LOG_IMPL ESP_LOG_INFO (mk_globals initial_state ESP_LOG_WARN) 4321
       "boot" "x" ESP_LOG_ERROR []
     = [mk_rom_printf DRAM_LOG_FORMAT (PInt s :: PInt ms :: rest);
        mk_rom_printf ("x" ++ String "010" EmptyString) []] /\
     s * 1000 + ms = 4321 /\ ms < 1000).
Proof.
  exact (proj2 (early_dram_timestamp ESP_LOG_INFO (mk_globals initial_state ESP_LOG_WARN)
                  4321 0 "boot" "x" ESP_LOG_ERROR []) eq_refl).
Defined.
